(** * jax/_src/numpy/ndarray.py: the [ndarray] abstract class and its
      [isinstance] override

    The Python module declares the abstract class [ndarray] (metaclass
    [ArrayMeta], a subclass of [abc.ABCMeta]), overrides the instance check
    so that tracers whose [aval] is an [UnshapedArray] count as arrays, makes
    [ndarray.__init__] refuse construction, and registers the concrete array
    classes as virtual subclasses.

    The development embeds that code shallowly:
    - Python values carry their class name and the behaviour of their
      [aval] attribute;
    - raising is a [result]; the mutable ABC bookkeeping of [ndarray]
      (registry, caches, invalidation counter) is threaded through a
      state-and-exception monad [M];
    - [abc.ABCMeta] is the interpreter's (module [_py_abc]); it is embedded
      because [ArrayMeta.__instancecheck__] and [ndarray.register] call it. *)

From Stdlib Require Import ZArith Bool List.
From stdpp Require Import base strings gmap sets list.

Local Open Scope string_scope.
Local Open Scope nat_scope.

(** ** Exceptions and results *)

Inductive exn : Type :=
  | AttributeError (msg : string)
  | TypeError (msg : string)
  | RuntimeError (msg : string)
  | ValueError (msg : string).

(** [except AttributeError:] *)
Definition is_AttributeError (e : exn) : bool :=
  match e with AttributeError _ => true | _ => false end.

Inductive result (A : Type) : Type :=
  | Ret (a : A)
  | Raise (e : exn).
Arguments Ret {A} a.
Arguments Raise {A} e.

(** ** Values

    What an attribute read can do: the attribute is not there (the
    interpreter raises [AttributeError]), it yields a value, or the getter
    behind it (a property, [__getattr__]) raises an exception of its own. *)

Inductive lookup (V : Type) : Type :=
  | Missing
  | Found (v : V)
  | Fails (e : exn).
Arguments Missing {V}.
Arguments Found {V} v.
Arguments Fails {V} e.

(** A value is [None], a [bool], an [int], or an instance of a class.  Of an
    instance the model keeps the class name and the [aval] attribute:
    [aval k] is the outcome of the [k]-th read of [.aval] (counted from 0)
    made on the object as it stands.  A plain attribute is a constant
    function; a getter with effects may answer successive reads
    differently. *)

#[warnings="-register-all"]
Inductive value : Type :=
  | VNone
  | VBool (b : bool)
  | VInt (n : Z)
  | VObject (ty : string) (aval : nat -> lookup value).

(** [type(v).__name__] *)
Definition py_type (v : value) : string :=
  match v with
  | VNone => "NoneType"
  | VBool _ => "bool"
  | VInt _ => "int"
  | VObject ty _ => ty
  end.

(** The [k]-th read of [v.aval]. *)
Definition read_aval (v : value) (k : nat) : lookup value :=
  match v with
  | VObject _ aval => aval k
  | _ => Missing
  end.

(** [bool(v)], as the builtin [isinstance] applies it to what
    [__instancecheck__] returned. *)
Definition truth (v : value) : bool :=
  match v with
  | VNone => false
  | VBool b => b
  | VInt n => negb (n =? 0)%Z
  | VObject _ _ => true
  end.

Definition is_bool (v : value) : bool :=
  match v with VBool _ => true | _ => false end.

(** ** Classes

    The classes of the running process: the method resolution order of each
    class (the class itself first) and the direct subclasses created by
    [class] statements. *)

Record class_table : Type := ClassTable {
  ct_mro : string -> list string;
  ct_subclasses : string -> list string
}.

(** [issubclass(sub, cls)] for a class [cls] whose metaclass is [type]. *)
Definition issubclass (ct : class_table) (sub cls : string) : bool :=
  bool_decide (cls ∈ ct_mro ct sub).

(** [isinstance(v, cls)] for a class [cls] whose metaclass is [type]. *)
Definition isinstance (ct : class_table) (v : value) (cls : string) : bool :=
  issubclass ct (py_type v) cls.

(** [core.UnshapedArray], an ordinary class. *)
Definition UnshapedArray : string := "UnshapedArray".

(** [hasattr(v, "aval")]: a read that turns [AttributeError] into [False]
    and lets any other exception through. *)
Definition hasattr_aval (v : value) (k : nat) : result bool :=
  match read_aval v k with
  | Missing => Ret false
  | Found _ => Ret true
  | Fails e => if is_AttributeError e then Ret false else Raise e
  end.

(** [v.aval] *)
Definition getattr_aval (v : value) (k : nat) : result value :=
  match read_aval v k with
  | Missing =>
      Raise (AttributeError
               ("'" ++ py_type v ++ "' object has no attribute 'aval'"))
  | Found a => Ret a
  | Fails e => Raise e
  end.

(** ** The bookkeeping of an ABC

    [abc.ABCMeta] keeps, for each abstract class, the set of registered
    virtual subclasses and two caches of earlier answers; the negative cache
    is valid only while its version equals the invalidation counter, which
    every registration bumps.  The state below is that of the one ABC of this
    module, [ndarray], together with the counter. *)

Record abc_state : Type := AbcState {
  abc_registry : gset string;
  abc_cache : gset string;
  abc_negative_cache : gset string;
  abc_negative_cache_version : nat;
  abc_invalidation_counter : nat
}.

(** The state [ABCMeta.__new__] leaves behind when the class is created
    while the counter stands at [c]. *)
Definition abc_new (c : nat) : abc_state :=
  AbcState ∅ ∅ ∅ c c.

Definition cache_add (x : string) (s : abc_state) : abc_state :=
  AbcState (abc_registry s) ({[x]} ∪ abc_cache s) (abc_negative_cache s)
           (abc_negative_cache_version s) (abc_invalidation_counter s).

Definition negative_cache_add (x : string) (s : abc_state) : abc_state :=
  AbcState (abc_registry s) (abc_cache s) ({[x]} ∪ abc_negative_cache s)
           (abc_negative_cache_version s) (abc_invalidation_counter s).

Definition negative_cache_reset (s : abc_state) : abc_state :=
  AbcState (abc_registry s) (abc_cache s) ∅
           (abc_invalidation_counter s) (abc_invalidation_counter s).

Definition registry_add (x : string) (s : abc_state) : abc_state :=
  AbcState ({[x]} ∪ abc_registry s) (abc_cache s) (abc_negative_cache s)
           (abc_negative_cache_version s) (S (abc_invalidation_counter s)).

(** ** Computations: state and exceptions

    A statement may change the ABC state and either yields a value or raises;
    what was written before an exception stays written. *)

Definition M (A : Type) : Type := abc_state -> result A * abc_state.

Definition ret {A} (a : A) : M A := fun s => (Ret a, s).

Definition raise {A} (e : exn) : M A := fun s => (Raise e, s).

Definition bind {A B} (m : M A) (k : A -> M B) : M B :=
  fun s =>
    match m s with
    | (Ret a, s') => k a s'
    | (Raise e, s') => (Raise e, s')
    end.

Definition lift {A} (r : result A) : M A := fun s => (r, s).

Definition get : M abc_state := fun s => (Ret s, s).

Definition modify (f : abc_state -> abc_state) : M unit :=
  fun s => (Ret tt, f s).

(** [try: body  except <catches>: handler] *)
Definition try_except {A} (body : M A) (catches : exn -> bool)
    (handler : M A) : M A :=
  fun s =>
    match body s with
    | (Raise e, s') => if catches e then handler s' else (Raise e, s')
    | r => r
    end.

Notation "x <- m ;; k" := (bind m (fun x => k))
  (at level 100, m at next level, right associativity).
Notation "m ;; k" := (bind m (fun _ => k))
  (at level 100, right associativity).

(** ** [abc.ABCMeta] *)

Module ABCMeta.
Section Methods.
Context (ct : class_table).

(** [ABCMeta.__subclasscheck__(cls, subclass)], i.e.
    [issubclass(subclass, cls)].  [ndarray] has no [__subclasshook__] of
    its own, so the hook answers [NotImplemented]; registered classes and
    subclasses are ordinary classes, checked through their MRO. *)
Definition __subclasscheck__ (cls subclass : string) : M bool :=
  s <- get ;;
  if bool_decide (subclass ∈ abc_cache s) then ret true
  else
    let rest : M bool :=
      if issubclass ct subclass cls then
        modify (cache_add subclass) ;; ret true
      else
        s <- get ;;
        if existsb (issubclass ct subclass) (elements (abc_registry s)) then
          modify (cache_add subclass) ;; ret true
        else if existsb (issubclass ct subclass) (ct_subclasses ct cls) then
          modify (cache_add subclass) ;; ret true
        else
          modify (negative_cache_add subclass) ;; ret false
    in
    if (abc_negative_cache_version s <? abc_invalidation_counter s)%nat then
      modify negative_cache_reset ;; rest
    else if bool_decide (subclass ∈ abc_negative_cache s) then ret false
    else rest.

(** [ABCMeta.__instancecheck__(cls, instance)]; [instance.__class__] and
    [type(instance)] are the same class. *)
Definition __instancecheck__ (cls : string) (instance : value) : M bool :=
  let subclass := py_type instance in
  s <- get ;;
  if bool_decide (subclass ∈ abc_cache s) then ret true
  else if (abc_negative_cache_version s =? abc_invalidation_counter s)%nat
          && bool_decide (subclass ∈ abc_negative_cache s) then ret false
  else __subclasscheck__ cls subclass.

(** [ABCMeta.register(cls, subclass)] *)
Definition register (cls subclass : string) : M string :=
  already <- __subclasscheck__ cls subclass ;;
  if already then ret subclass
  else if issubclass ct cls subclass then
    raise (RuntimeError "Refusing to create an inheritance cycle")
  else
    modify (registry_add subclass) ;; ret subclass.
End Methods.
End ABCMeta.

(** ** [class ArrayMeta(abc.ABCMeta)] *)

Module ArrayMeta.
(** [ArrayMeta.__instancecheck__(self, instance)].  [hasattr] makes the
    first read of [instance.aval], the expression [instance.aval] the
    second.  The handler calls the inherited check and drops what it
    answers: the method then ends without a [return], so it yields
    [None]. *)
Definition __instancecheck__ (ct : class_table) (self : string)
    (instance : value) : M value :=
  try_except
    (has <- lift (hasattr_aval instance 0) ;;
     if has then
       a <- lift (getattr_aval instance 1) ;;
       ret (VBool (isinstance ct a UnshapedArray))
     else ret (VBool false))
    is_AttributeError
    (ABCMeta.__instancecheck__ ct self instance ;; ret VNone).
End ArrayMeta.

(** ** [class ndarray(metaclass=ArrayMeta)] *)

Module ndarray.
Definition name : string := "ndarray".

(** [ndarray.__init__(self, shape, dtype=None, buffer=None, offset=0,
    strides=None, order=None)]; an argument left out is [None] here and
    takes its default. *)
Definition __init__ (self shape : value)
    (dtype buffer offset strides order : option value) : result value :=
  let dtype := default VNone dtype in
  let buffer := default VNone buffer in
  let offset := default (VInt 0) offset in
  let strides := default VNone strides in
  let order := default VNone order in
  Raise (TypeError
    ("jax.numpy.ndarray() should not be instantiated explicitly."
     ++ " Use jax.numpy.array, or jax.numpy.zeros instead.")).

(** [ndarray.register(subclass)], inherited from [abc.ABCMeta]. *)
Definition register (ct : class_table) (subclass : string) : M string :=
  ABCMeta.register ct name subclass.
End ndarray.

(** [issubclass(t, ndarray)] *)
Definition issubclass_ndarray (ct : class_table) (t : string) : M bool :=
  ABCMeta.__subclasscheck__ ct ndarray.name t.

(** [isinstance(v, ndarray)]: the builtin calls the metaclass's
    [__instancecheck__] and takes the truth value of what comes back.  (Its
    shortcut for [type(v) is ndarray] never applies: an abstract class has
    no direct instances.) *)
Definition isinstance_ndarray (ct : class_table) (v : value) : M bool :=
  r <- ArrayMeta.__instancecheck__ ct ndarray.name v ;; ret (truth r).

(** ** Module initialisation

    The three statements that close the module.  The classes they register
    live in [jax._src.device_array] and [jax.interpreters.pxla]; they are
    parameters here. *)

Section ModuleInit.
Context (ct : class_table).
Context (DeviceArray : string) (device_array_types : list string)
        (_SDA_BASE_CLASS : string).

(** [for t in ts: ndarray.register(t)] *)
Fixpoint register_each (ts : list string) : M unit :=
  match ts with
  | [] => ret tt
  | t :: ts' => ndarray.register ct t ;; register_each ts'
  end.

Definition module_init : M unit :=
  ndarray.register ct DeviceArray ;;
  register_each device_array_types ;;
  ndarray.register ct _SDA_BASE_CLASS ;;
  ret tt.
End ModuleInit.

(** ** A concrete process, for the examples

    Classes of [jax.core] with their bases; any other class derives from
    [object] alone. *)

Definition jax_bases : list (string * list string) :=
  [ ("object", ["object"]);
    ("UnshapedArray", ["UnshapedArray"; "AbstractValue"; "object"]);
    ("ShapedArray",
      ["ShapedArray"; "UnshapedArray"; "AbstractValue"; "object"]);
    ("ConcreteArray",
      ["ConcreteArray"; "ShapedArray"; "UnshapedArray"; "AbstractValue";
       "object"]);
    ("AbstractUnit", ["AbstractUnit"; "AbstractValue"; "object"]) ].

Fixpoint assoc (k : string) (l : list (string * list string))
    : option (list string) :=
  match l with
  | [] => None
  | (k', v) :: l' => if String.eqb k k' then Some v else assoc k l'
  end.

Definition jax_classes : class_table :=
  ClassTable (fun c => default [c; "object"] (assoc c jax_bases))
             (fun _ => []).

(** An object whose [aval] is a plain attribute holding [a]. *)
Definition with_aval (ty : string) (a : value) : value :=
  VObject ty (fun _ => Found a).

(** An object without an [aval] attribute. *)
Definition without_aval (ty : string) : value :=
  VObject ty (fun _ => Missing).

(** An abstract value of class [ty] (it has no [aval] of its own). *)
Definition abstract_value (ty : string) : value := without_aval ty.

(** An object whose [aval] property raises [e] on every read. *)
Definition broken_aval (ty : string) (e : exn) : value :=
  VObject ty (fun _ => Fails e).

(** An object whose [aval] getter answers the first read with [a] and then
    raises [AttributeError]. *)
Definition fading_aval (ty : string) (a : value) : value :=
  VObject ty (fun k =>
    match k with
    | O => Found a
    | S _ => Fails (AttributeError "aval")
    end).

(** An object whose [aval] getter answers the first read with [a] and
    raises [e] from then on. *)
Definition failing_after_first (ty : string) (a : value) (e : exn) : value :=
  VObject ty (fun k =>
    match k with
    | O => Found a
    | S _ => Fails e
    end).


(** ** The value after a call

    [ArrayMeta.__instancecheck__] has no statement that writes to
    [instance]; what a call does to it is read [aval]: once when [hasattr]
    answers [False] or raises, twice when it answers [True].  After the call
    the object stands where those reads left it. *)




(** The state after [HostArray] alone has been registered. *)
Definition host_registered : abc_state :=
  snd (ndarray.register jax_classes "HostArray" (abc_new 0)).

(** The state after the module has been imported. *)
Definition imported : abc_state :=
  snd (module_init jax_classes "DeviceArray" ["Buffer"; "_DeviceArray"]
         "ShardedDeviceArrayBase" (abc_new 0)).

(** ** What the ABC bookkeeping is meant to compute

    [t] conforms to [cls] under the registry [reg] when [cls] is among its
    bases, or a registered class is, or a direct subclass of [cls] is. *)

Definition conforms (ct : class_table) (cls : string) (reg : gset string)
    (t : string) : Prop :=
  cls ∈ ct_mro ct t
  ∨ (∃ r, r ∈ reg ∧ r ∈ ct_mro ct t)
  ∨ (∃ c, c ∈ ct_subclasses ct cls ∧ c ∈ ct_mro ct t).

(** The invariant of the caches: the version never runs ahead of the
    counter, the positive cache holds conforming classes only, and the
    negative cache, while it is valid, holds non-conforming ones only. *)

Record abc_inv (ct : class_table) (cls : string) (s : abc_state) : Prop :=
  AbcInv {
    inv_version :
      abc_negative_cache_version s ≤ abc_invalidation_counter s;
    inv_cache :
      ∀ t, t ∈ abc_cache s → conforms ct cls (abc_registry s) t;
    inv_negative :
      abc_negative_cache_version s = abc_invalidation_counter s →
      ∀ t, t ∈ abc_negative_cache s → ¬ conforms ct cls (abc_registry s) t
  }.

(** ** Histories

    The calls that reach the ABC bookkeeping of [ndarray], and the state a
    sequence of them leaves behind (whether a call returns or raises). *)

Inductive call : Type :=
  | CallRegister (t : string)
  | CallIssubclass (t : string)
  | CallIsinstance (v : value).

Definition after_call (ct : class_table) (c : call) (s : abc_state)
    : abc_state :=
  match c with
  | CallRegister t => snd (ndarray.register ct t s)
  | CallIssubclass t => snd (issubclass_ndarray ct t s)
  | CallIsinstance v => snd (isinstance_ndarray ct v s)
  end.

Definition after_calls (ct : class_table) (cs : list call) (s : abc_state)
    : abc_state :=
  fold_left (fun s c => after_call ct c s) cs s.

(** The states the bookkeeping of [ndarray] can be in: those some history
    leads to from the state the class is created in. *)
Definition reachable (ct : class_table) (s : abc_state) : Prop :=
  ∃ c cs, s = after_calls ct cs (abc_new c).

(** The concrete process with one more class, derived from [DeviceArray]
    by a [class] statement. *)
Definition jax_classes_derived : class_table :=
  ClassTable
    (fun c =>
       default [c; "object"]
         (assoc c (("PaddedArray", ["PaddedArray"; "DeviceArray"; "object"])
                   :: jax_bases)))
    (fun _ => []).

(** * Properties *)

(** ** The monad *)

Lemma bind_ret {A B} (m : M A) (k : A -> M B) s a s' :
  m s = (Ret a, s') -> bind m k s = k a s'.
Proof. intros E. unfold bind. by rewrite E. Qed.

Lemma bind_raise {A B} (m : M A) (k : A -> M B) s e s' :
  m s = (Raise e, s') -> bind m k s = (Raise e, s').
Proof. intros E. unfold bind. by rewrite E. Qed.

Lemma bind_assoc {A B C} (m : M A) (k : A -> M B) (h : B -> M C) s :
  bind (bind m k) h s = bind m (fun a => bind (k a) h) s.
Proof. unfold bind. by destruct (m s) as [[a | e] s']. Qed.

Lemma bind_ext {A B} (m : M A) (k k' : A -> M B) s :
  (forall a s', k a s' = k' a s') -> bind m k s = bind m k' s.
Proof. intros H. unfold bind. by destruct (m s) as [[a | e] s']. Qed.

(** ** [abc.ABCMeta] *)

Section AbcFacts.
Context (ct : class_table) (cls : string).

Lemma existsb_issubclass t (l : list string) :
  existsb (issubclass ct t) l = true ↔ ∃ r, r ∈ l ∧ r ∈ ct_mro ct t.
Proof.
  rewrite existsb_exists. unfold issubclass. split.
  - intros (r & Hin & Hr). exists r. split; [by apply list_elem_of_In |].
    by apply bool_decide_eq_true in Hr.
  - intros (r & Hin & Hr). exists r. split; [by apply list_elem_of_In |].
    by apply bool_decide_eq_true.
Qed.

Lemma conforms_mono reg reg' t :
  reg ⊆ reg' → conforms ct cls reg t → conforms ct cls reg' t.
Proof.
  intros Hsub [H | [(r & Hr & Hm) | H]]; [by left | | by right; right].
  right; left. exists r. split; [set_solver | done].
Qed.

Lemma abc_new_inv c : abc_inv ct cls (abc_new c).
Proof.
  split; simpl; [lia | set_solver | set_solver].
Qed.

(** Under the invariant [issubclass(t, cls)] returns, decides
    conformance, keeps the invariant and leaves registry and counter
    alone. *)
Lemma subclasscheck_spec s t :
  abc_inv ct cls s →
  ∃ b s', ABCMeta.__subclasscheck__ ct cls t s = (Ret b, s')
    ∧ abc_inv ct cls s'
    ∧ abc_registry s' = abc_registry s
    ∧ abc_invalidation_counter s' = abc_invalidation_counter s
    ∧ (b = true ↔ conforms ct cls (abc_registry s) t).
Proof.
  intros [Hv Hc Hn].
  unfold ABCMeta.__subclasscheck__.
  set (rest := if issubclass ct t cls then _ else _).
  assert (Hslow : ∀ s0,
    abc_registry s0 = abc_registry s →
    abc_invalidation_counter s0 = abc_invalidation_counter s →
    abc_negative_cache_version s0 = abc_invalidation_counter s0 →
    abc_inv ct cls s0 →
    ∃ b s', rest s0 = (Ret b, s')
      ∧ abc_inv ct cls s'
      ∧ abc_registry s' = abc_registry s
      ∧ abc_invalidation_counter s' = abc_invalidation_counter s
      ∧ (b = true ↔ conforms ct cls (abc_registry s) t)).
  { intros s0 Hreg Hcnt Hver [Hv0 Hc0 Hn0].
    assert (Hadd : conforms ct cls (abc_registry s) t →
                   abc_inv ct cls (cache_add t s0)).
    { intros Hconf. split; simpl; [done | | done].
      intros x [->%elem_of_singleton | Hx]%elem_of_union.
      - by rewrite Hreg.
      - by apply Hc0. }
    unfold rest, bind, get, ret, modify.
    destruct (issubclass ct t cls) eqn:E1.
    { assert (conforms ct cls (abc_registry s) t).
      { left. by apply bool_decide_eq_true in E1. }
      exists true, (cache_add t s0).
      split_and!; [done | by apply Hadd | done | done | by split]. }
    destruct (existsb (issubclass ct t) (elements (abc_registry s0))) eqn:E2.
    { assert (conforms ct cls (abc_registry s) t).
      { right; left. apply existsb_issubclass in E2 as (r & Hr & Hm).
        exists r. split; [| done]. rewrite <- Hreg. by apply elem_of_elements. }
      exists true, (cache_add t s0).
      split_and!; [done | by apply Hadd | done | done | by split]. }
    destruct (existsb (issubclass ct t) (ct_subclasses ct cls)) eqn:E3.
    { assert (conforms ct cls (abc_registry s) t).
      { right; right. by apply existsb_issubclass in E3. }
      exists true, (cache_add t s0).
      split_and!; [done | by apply Hadd | done | done | by split]. }
    assert (Hno : ¬ conforms ct cls (abc_registry s) t).
    { intros [H | [(r & Hr & Hm) | H]].
      - apply bool_decide_eq_false in E1. done.
      - apply not_true_iff_false in E2. apply E2, existsb_issubclass.
        exists r. split; [| done]. apply elem_of_elements. by rewrite Hreg.
      - apply not_true_iff_false in E3. by apply E3, existsb_issubclass. }
    exists false, (negative_cache_add t s0). split_and!; try done.
    split; simpl; [done | done |].
    intros _ x [->%elem_of_singleton | Hx]%elem_of_union.
    - by rewrite Hreg.
    - by apply Hn0. }
  clearbody rest. unfold bind, get, ret, modify.
  destruct (bool_decide (t ∈ abc_cache s)) eqn:Ecache.
  { apply bool_decide_eq_true in Ecache.
    exists true, s. split_and!; try done. split; [by auto | done]. }
  destruct (abc_negative_cache_version s <? abc_invalidation_counter s)
    eqn:Estale.
  - apply (Hslow (negative_cache_reset s)); simpl; auto.
    split; simpl; [done | done | set_solver].
  - apply Nat.ltb_ge in Estale.
    assert (Hver : abc_negative_cache_version s = abc_invalidation_counter s)
      by lia.
    destruct (bool_decide (t ∈ abc_negative_cache s)) eqn:Eneg.
    + apply bool_decide_eq_true in Eneg.
      exists false, s. split_and!; try done.
      split; [done |]. intros Hconf. by destruct (Hn Hver t Eneg).
    + apply (Hslow s); auto. by split.
Qed.
(** Whatever the state, [issubclass(t, cls)] returns a [bool] and writes
    to the caches only. *)
Lemma subclasscheck_frame s t :
  ∃ b s', ABCMeta.__subclasscheck__ ct cls t s = (Ret b, s')
    ∧ abc_registry s' = abc_registry s.
Proof.
  unfold ABCMeta.__subclasscheck__, bind, get, ret, modify.
  destruct (bool_decide (t ∈ abc_cache s)); [by eauto |].
  destruct (abc_negative_cache_version s <? abc_invalidation_counter s).
  - destruct (issubclass ct t cls); [by eauto |]. simpl.
    destruct (existsb _ (elements _)); [by eauto |].
    destruct (existsb _ _); by eauto.
  - destruct (bool_decide (t ∈ abc_negative_cache s)); [by eauto |].
    destruct (issubclass ct t cls); [by eauto |].
    destruct (existsb _ (elements _)); [by eauto |].
    destruct (existsb _ _); by eauto.
Qed.

(** The same for the inherited [ABCMeta.__instancecheck__]. *)
Lemma abc_instancecheck_frame s v :
  ∃ b s', ABCMeta.__instancecheck__ ct cls v s = (Ret b, s')
    ∧ abc_registry s' = abc_registry s.
Proof.
  unfold ABCMeta.__instancecheck__. unfold bind at 1. unfold get at 1.
  destruct (bool_decide _); [by exists true, s |].
  destruct (_ && _); [by exists false, s |].
  apply subclasscheck_frame.
Qed.

(** Registration is append-only: [register] never takes a class out of
    the registry, whether it returns or raises. *)
Lemma register_registry_mono s t :
  abc_registry s ⊆ abc_registry (snd (ABCMeta.register ct cls t s)).
Proof.
  unfold ABCMeta.register. unfold bind at 1.
  destruct (subclasscheck_frame s t) as (b & s' & -> & Hreg).
  destruct b; [by rewrite <- Hreg |].
  destruct (issubclass ct cls t); simpl; [by rewrite <- Hreg |].
  rewrite Hreg. apply union_subseteq_r.
Qed.

(** Registering a class that is its own first base and is not a base of
    [cls] succeeds, keeps the invariant and makes the class conform. *)
Lemma register_spec s t :
  abc_inv ct cls s →
  t ∈ ct_mro ct t →
  t ∉ ct_mro ct cls →
  ∃ s', ABCMeta.register ct cls t s = (Ret t, s')
    ∧ abc_inv ct cls s'
    ∧ abc_registry s ⊆ abc_registry s'
    ∧ conforms ct cls (abc_registry s') t.
Proof.
  intros Hinv Hself Hbase.
  unfold ABCMeta.register. unfold bind at 1.
  destruct (subclasscheck_spec s t Hinv)
    as (b & s1 & -> & [Hv Hc Hn] & Hreg & Hcnt & Hb).
  destruct b.
  { exists s1. split_and!; [done | done | by rewrite Hreg |].
    rewrite Hreg. by apply Hb. }
  unfold issubclass. rewrite bool_decide_eq_false_2 by done.
  exists (registry_add t s1).
  split_and!; [done | | simpl; rewrite Hreg; apply union_subseteq_r |].
  - split; simpl; [lia | | lia].
    intros x Hx. eapply conforms_mono; [| by apply Hc].
    apply union_subseteq_r.
  - right; left. exists t. simpl.
    split; [by apply elem_of_union_l, elem_of_singleton | done].
Qed.
End AbcFacts.

(** ** Module initialisation *)

Section InitFacts.
Context (ct : class_table).

Lemma register_each_spec ts s :
  abc_inv ct ndarray.name s →
  (∀ t, t ∈ ts → t ∈ ct_mro ct t) →
  (∀ t, t ∈ ts → t ∉ ct_mro ct ndarray.name) →
  ∃ s', register_each ct ts s = (Ret tt, s')
    ∧ abc_inv ct ndarray.name s'
    ∧ abc_registry s ⊆ abc_registry s'
    ∧ ∀ t, t ∈ ts → conforms ct ndarray.name (abc_registry s') t.
Proof.
  revert s. induction ts as [| t ts IH]; intros s Hinv Hself Hbase.
  - exists s. split_and!; [done | done | done |]. by intros t ?%elem_of_nil.
  - destruct (register_spec ct ndarray.name s t Hinv) as (s1 & E1 & I1 & R1 & C1);
      [apply Hself; left | apply Hbase; left |].
    destruct (IH s1 I1) as (s2 & E2 & I2 & R2 & C2).
    { intros x Hx. apply Hself. by right. }
    { intros x Hx. apply Hbase. by right. }
    exists s2. split_and!; [| done | set_solver |].
    + simpl. unfold ndarray.register. by rewrite (bind_ret _ _ _ _ _ E1).
    + intros x [-> | Hx]%elem_of_cons; [| by apply C2].
      by eapply conforms_mono.
Qed.

(** The closing statements amount to one loop over all the classes. *)
Lemma module_init_register_each DeviceArray device_array_types
    _SDA_BASE_CLASS s :
  module_init ct DeviceArray device_array_types _SDA_BASE_CLASS s
  = register_each ct
      (DeviceArray :: device_array_types ++ [_SDA_BASE_CLASS]) s.
Proof.
  unfold module_init. simpl. apply bind_ext. intros _.
  induction device_array_types as [| t ts IH]; intros s'; simpl.
  - unfold bind, ret. by destruct (ndarray.register _ _ _) as [[y | e] s2].
  - rewrite bind_assoc. apply bind_ext. intros _. apply IH.
Qed.
End InitFacts.

(** ** [ArrayMeta.__instancecheck__], path by path *)

Section CheckFacts.
Context (ct : class_table) (self : string).

(** No [aval]: [hasattr] is [False] and that is the answer. *)
Lemma instancecheck_missing v s :
  read_aval v 0 = Missing →
  ArrayMeta.__instancecheck__ ct self v s = (Ret (VBool false), s).
Proof.
  intros E. unfold ArrayMeta.__instancecheck__, try_except, bind, lift,
    hasattr_aval. by rewrite E.
Qed.

(** The first read fails with [AttributeError]: [hasattr] swallows it. *)
Lemma instancecheck_first_attribute_error v s e :
  read_aval v 0 = Fails e → is_AttributeError e = true →
  ArrayMeta.__instancecheck__ ct self v s = (Ret (VBool false), s).
Proof.
  intros E Ha. unfold ArrayMeta.__instancecheck__, try_except, bind, lift,
    hasattr_aval. by rewrite E, Ha.
Qed.

(** The first read fails with anything else: [hasattr] lets it through and
    so does [except AttributeError]. *)
Lemma instancecheck_first_other_error v s e :
  read_aval v 0 = Fails e → is_AttributeError e = false →
  ArrayMeta.__instancecheck__ ct self v s = (Raise e, s).
Proof.
  intros E Ha. unfold ArrayMeta.__instancecheck__, try_except, bind, lift,
    hasattr_aval. by rewrite E, !Ha.
Qed.

(** Both reads succeed: the answer is the [isinstance] test on the
    descriptor. *)
Lemma instancecheck_found v s a0 a :
  read_aval v 0 = Found a0 → read_aval v 1 = Found a →
  ArrayMeta.__instancecheck__ ct self v s
  = (Ret (VBool (isinstance ct a UnshapedArray)), s).
Proof.
  intros E0 E1. unfold ArrayMeta.__instancecheck__, try_except, bind, lift,
    hasattr_aval, getattr_aval, ret. by rewrite E0, E1.
Qed.

(** The second read fails with something other than [AttributeError]. *)
Lemma instancecheck_second_other_error v s a0 e :
  read_aval v 0 = Found a0 → read_aval v 1 = Fails e →
  is_AttributeError e = false →
  ArrayMeta.__instancecheck__ ct self v s = (Raise e, s).
Proof.
  intros E0 E1 Ha. unfold ArrayMeta.__instancecheck__, try_except, bind,
    lift, hasattr_aval, getattr_aval, ret. by rewrite E0, E1, !Ha.
Qed.

(** The second read raises [AttributeError] (the attribute is gone, or its
    getter raises it): the handler runs, and the method yields [None]. *)
Lemma instancecheck_handler v s a0 :
  read_aval v 0 = Found a0 →
  (read_aval v 1 = Missing
   ∨ ∃ e, read_aval v 1 = Fails e ∧ is_AttributeError e = true) →
  ∃ s', ArrayMeta.__instancecheck__ ct self v s = (Ret VNone, s')
    ∧ abc_registry s' = abc_registry s.
Proof.
  intros E0 E1.
  destruct (abc_instancecheck_frame ct self s v) as (b & s' & Hsup & Hreg).
  exists s'. split; [| done].
  unfold ArrayMeta.__instancecheck__, try_except, bind, lift,
    hasattr_aval, getattr_aval, ret. rewrite E0.
  destruct E1 as [-> | (e & -> & Ha)]; simpl; [| rewrite Ha];
    by rewrite Hsup.
Qed.

(** Every call ends in one of three ways: a [bool], [None], or an
    exception that is not an [AttributeError] and was raised by a read of
    [aval]; the registry is the same afterwards. *)
Lemma instancecheck_outcomes v s :
  ∃ r s', ArrayMeta.__instancecheck__ ct self v s = (r, s')
    ∧ abc_registry s' = abc_registry s
    ∧ ((∃ b, r = Ret (VBool b))
       ∨ r = Ret VNone
       ∨ (∃ k e, k < 2 ∧ read_aval v k = Fails e
                 ∧ is_AttributeError e = false ∧ r = Raise e)).
Proof.
  destruct (read_aval v 0) as [| a0 | e0] eqn:E0.
  - eexists _, s. split; [by apply instancecheck_missing |]. eauto.
  - destruct (read_aval v 1) as [| a1 | e1] eqn:E1.
    + destruct (instancecheck_handler v s a0 E0) as (s' & -> & Hreg); eauto.
      exists (Ret VNone), s'. eauto.
    + eexists _, s. split; [by eapply instancecheck_found |]. eauto.
    + destruct (is_AttributeError e1) eqn:Ha.
      * destruct (instancecheck_handler v s a0 E0) as (s' & -> & Hreg);
          eauto.
        exists (Ret VNone), s'. eauto.
      * eexists _, s.
        split; [by eapply instancecheck_second_other_error |].
        split; [done |]. right; right. exists 1, e1. eauto.
  - destruct (is_AttributeError e0) eqn:Ha.
    + eexists _, s.
      split; [by eapply instancecheck_first_attribute_error |]. eauto.
    + eexists _, s.
      split; [by eapply instancecheck_first_other_error |].
      split; [done |]. right; right. exists 0, e0. split; [lia | eauto].
Qed.

End CheckFacts.

(** ** [isinstance(v, ndarray)] *)

Lemma isinstance_ndarray_ret ct v s r s' :
  ArrayMeta.__instancecheck__ ct ndarray.name v s = (Ret r, s') →
  isinstance_ndarray ct v s = (Ret (truth r), s').
Proof. intros E. unfold isinstance_ndarray. by rewrite (bind_ret _ _ _ _ _ E). Qed.

Lemma isinstance_ndarray_raise ct v s e s' :
  ArrayMeta.__instancecheck__ ct ndarray.name v s = (Raise e, s') →
  isinstance_ndarray ct v s = (Raise e, s').
Proof. intros E. unfold isinstance_ndarray. by rewrite (bind_raise _ _ _ _ _ E). Qed.

(** A value without [aval] is rejected whatever the registry holds. *)
Lemma isinstance_ndarray_missing ct v s :
  read_aval v 0 = Missing → isinstance_ndarray ct v s = (Ret false, s).
Proof.
  intros E. by rewrite (isinstance_ndarray_ret _ _ _ _ _
                          (instancecheck_missing ct _ v s E)).
Qed.

(** * The claims *)

(** C1.  The claim: a value whose type is registered is accepted whether or
    not it carries [aval].  The code does otherwise, and the theorem records
    it at one input: with [HostArray] registered (it is in the registry and
    [issubclass(HostArray, ndarray)] is [True]), [isinstance] of a
    [HostArray] that has no [aval] is [False], because [hasattr] answers
    [False] and the inherited check is never consulted. *)
Theorem C1_registered_without_aval_rejected :
  "HostArray" ∈ abc_registry host_registered
  ∧ fst (issubclass_ndarray jax_classes "HostArray" host_registered) = Ret true
  ∧ fst (isinstance_ndarray jax_classes (without_aval "HostArray")
           host_registered) = Ret false.
Proof.
  split_and!.
  - apply (bool_decide_unpack _). by vm_compute.
  - by vm_compute.
  - by rewrite isinstance_ndarray_missing.
Qed.

(** C2.  A value whose [aval] attribute holds an instance of
    [core.UnshapedArray] or of a subclass of it is accepted by
    [isinstance(v, ndarray)], in every state of the registry, so also when
    its type was never registered; the state is left as it was. *)
Theorem C2_unshaped_aval_accepted ct s v a :
  (∀ k, read_aval v k = Found a) →
  isinstance ct a UnshapedArray = true →
  isinstance_ndarray ct v s = (Ret true, s).
Proof.
  intros Hread Ha.
  rewrite (isinstance_ndarray_ret _ _ _ _ _
             (instancecheck_found ct _ v s a a (Hread 0) (Hread 1))).
  by rewrite Ha.
Qed.

Lemma C2_unshaped_aval_accepted_witness :
  isinstance jax_classes (abstract_value "ShapedArray") UnshapedArray = true
  ∧ abc_registry (abc_new 0) = ∅
  ∧ isinstance_ndarray jax_classes
      (with_aval "Tracer" (abstract_value "ShapedArray")) (abc_new 0)
    = (Ret true, abc_new 0).
Proof.
  split; [vm_compute; reflexivity |]. split; [reflexivity |].
  apply (C2_unshaped_aval_accepted jax_classes (abc_new 0)
           (with_aval "Tracer" (abstract_value "ShapedArray"))
           (abstract_value "ShapedArray")).
  - intros k. reflexivity.
  - vm_compute. reflexivity.
Defined.

(** C3, as the claim puts it, fails: an exception other than
    [AttributeError] raised by reading [aval] comes out of
    [isinstance(v, ndarray)], while the same object without the attribute is
    simply rejected. *)
Lemma C3_counterexample :
  fst (isinstance_ndarray jax_classes
         (broken_aval "Tracer" (ValueError "boom")) (abc_new 0))
  = Raise (ValueError "boom")
  ∧ fst (isinstance_ndarray jax_classes (without_aval "Tracer") (abc_new 0))
    = Ret false.
Proof. split; vm_compute; reflexivity. Qed.

(** C3, amended.  When reading [aval] can fail with [AttributeError] only,
    [isinstance(v, ndarray)] does not raise; and if one of the two reads it
    makes does fail, the answer is the one given for an object of the same
    class without the attribute.  An exception of any other kind is not
    caught: raised by the read that [hasattr] makes, or by the read
    [instance.aval] makes after [hasattr] succeeded, it comes out of
    [isinstance], and the state is as it was. *)
Theorem C3_attribute_error_swallowed ct s v :
  ((∀ k e, read_aval v k = Fails e → is_AttributeError e = true) →
   (∃ b, fst (isinstance_ndarray ct v s) = Ret b)
   ∧ ((∃ e, read_aval v 0 = Fails e ∨ read_aval v 1 = Fails e) →
      fst (isinstance_ndarray ct v s)
      = fst (isinstance_ndarray ct (without_aval (py_type v)) s)))
  ∧ (∀ e, read_aval v 0 = Fails e → is_AttributeError e = false →
          isinstance_ndarray ct v s = (Raise e, s))
  ∧ (∀ a0 e, read_aval v 0 = Found a0 → read_aval v 1 = Fails e →
             is_AttributeError e = false →
             isinstance_ndarray ct v s = (Raise e, s)).
Proof.
  split_and!.
  - intros Hae.
    rewrite (isinstance_ndarray_missing ct (without_aval (py_type v)) s)
      by reflexivity.
    destruct (read_aval v 0) as [| a0 | e0] eqn:E0.
    + rewrite (isinstance_ndarray_missing ct v s E0). eauto.
    + destruct (read_aval v 1) as [| a1 | e1] eqn:E1.
      * destruct (instancecheck_handler ct ndarray.name v s a0 E0)
          as (s' & E & _); [by left |].
        rewrite (isinstance_ndarray_ret _ _ _ _ _ E). eauto.
      * rewrite (isinstance_ndarray_ret _ _ _ _ _
                   (instancecheck_found ct _ v s a0 a1 E0 E1)).
        split; [by eauto |]. intros (e & [? | ?]); discriminate.
      * destruct (instancecheck_handler ct ndarray.name v s a0 E0)
          as (s' & E & _); [right; exists e1; split; [done | by eapply Hae] |].
        rewrite (isinstance_ndarray_ret _ _ _ _ _ E). eauto.
    + rewrite (isinstance_ndarray_ret _ _ _ _ _
                 (instancecheck_first_attribute_error ct _ v s e0 E0
                    (Hae 0 e0 E0))).
      eauto.
  - intros e E0 Ha. apply isinstance_ndarray_raise.
    by apply instancecheck_first_other_error.
  - intros a0 e E0 E1 Ha. apply isinstance_ndarray_raise.
    by eapply instancecheck_second_other_error.
Qed.

Lemma C3_attribute_error_swallowed_witness :
  ((∃ b, fst (isinstance_ndarray jax_classes
                (fading_aval "Tracer" (abstract_value "ShapedArray"))
                host_registered) = Ret b)
   ∧ fst (isinstance_ndarray jax_classes
            (fading_aval "Tracer" (abstract_value "ShapedArray"))
            host_registered)
     = fst (isinstance_ndarray jax_classes (without_aval "Tracer")
              host_registered))
  ∧ isinstance_ndarray jax_classes
      (broken_aval "Tracer" (ValueError "boom")) host_registered
    = (Raise (ValueError "boom"), host_registered)
  ∧ isinstance_ndarray jax_classes
      (failing_after_first "Tracer" (abstract_value "ShapedArray")
         (ValueError "boom")) host_registered
    = (Raise (ValueError "boom"), host_registered).
Proof.
  split; [| split].
  - destruct (proj1 (C3_attribute_error_swallowed jax_classes host_registered
                       (fading_aval "Tracer" (abstract_value "ShapedArray"))))
      as [Hret Hsame].
    { intros k e. destruct k; simpl.
      - discriminate.
      - intros [= <-]. reflexivity. }
    split; [exact Hret |]. apply Hsame.
    exists (AttributeError "aval"). right. reflexivity.
  - apply (proj1 (proj2 (C3_attribute_error_swallowed jax_classes
                           host_registered
                           (broken_aval "Tracer" (ValueError "boom"))))
             (ValueError "boom")); reflexivity.
  - apply (proj2 (proj2 (C3_attribute_error_swallowed jax_classes
                           host_registered
                           (failing_after_first "Tracer"
                              (abstract_value "ShapedArray")
                              (ValueError "boom"))))
             (abstract_value "ShapedArray") (ValueError "boom"));
      reflexivity.
Defined.

(** C4.  A value whose type is not in the registry and which has no
    qualifying descriptor (no [aval] at all, or an [aval] that is not an
    instance of [core.UnshapedArray]) is rejected: [isinstance(v, ndarray)]
    returns [False] and leaves the state as it was. *)
Theorem C4_neither_registered_nor_unshaped ct s v :
  py_type v ∉ abc_registry s →
  ((∀ k, read_aval v k = Missing)
   ∨ ∃ a, (∀ k, read_aval v k = Found a)
          ∧ isinstance ct a UnshapedArray = false) →
  isinstance_ndarray ct v s = (Ret false, s).
Proof.
  intros _ [Hmiss | (a & Hread & Ha)].
  - by apply isinstance_ndarray_missing.
  - rewrite (isinstance_ndarray_ret _ _ _ _ _
               (instancecheck_found ct _ v s a a (Hread 0) (Hread 1))).
    by rewrite Ha.
Qed.

Lemma C4_neither_registered_nor_unshaped_witness :
  ("TracedPlaceholder" ∉ abc_registry host_registered)
  ∧ isinstance jax_classes (abstract_value "AbstractUnit") UnshapedArray = false
  ∧ isinstance_ndarray jax_classes
      (with_aval "TracedPlaceholder" (abstract_value "AbstractUnit"))
      host_registered
    = (Ret false, host_registered).
Proof.
  assert (H : "TracedPlaceholder" ∉ abc_registry host_registered).
  { apply (proj1 (bool_decide_eq_false _)). vm_compute. reflexivity. }
  split; [exact H |]. split; [vm_compute; reflexivity |].
  apply (C4_neither_registered_nor_unshaped jax_classes host_registered
           (with_aval "TracedPlaceholder" (abstract_value "AbstractUnit")) H).
  right. exists (abstract_value "AbstractUnit").
  split; [intros k; reflexivity | vm_compute; reflexivity].
Defined.

(** C5.  The claim: once a type is registered, [isinstance] accepts its
    instances from then on.  The registry is indeed append-only
    ([register_registry_mono]), but registration does not reach the instance
    check; the theorem records it at one input: [ndarray.register(HostArray)]
    succeeds on a fresh class, and in the state it leaves behind
    [isinstance] of a [HostArray] without [aval] is [False]. *)
Theorem C5_registration_does_not_reach_isinstance :
  fst (ndarray.register jax_classes "HostArray" (abc_new 0)) = Ret "HostArray"
  ∧ fst (isinstance_ndarray jax_classes (without_aval "HostArray")
           (snd (ndarray.register jax_classes "HostArray" (abc_new 0))))
    = Ret false.
Proof.
  split; [by vm_compute |]. by rewrite isinstance_ndarray_missing.
Qed.

(** C6.  The claim: [__instancecheck__] yields a [bool] on every path.  The
    code does otherwise on the path through the handler, and the theorem
    records it at one input: for a [HostArray] whose [aval] answers the
    first read and raises [AttributeError] on the second, the inherited
    check answers [True], the answer is dropped, and the method yields
    [None]. *)
Theorem C6_handler_yields_None :
  fst (ABCMeta.__instancecheck__ jax_classes ndarray.name
         (fading_aval "HostArray" (abstract_value "ShapedArray"))
         host_registered) = Ret true
  ∧ fst (ArrayMeta.__instancecheck__ jax_classes ndarray.name
           (fading_aval "HostArray" (abstract_value "ShapedArray"))
           host_registered) = Ret VNone
  ∧ is_bool VNone = false.
Proof. split_and!; by vm_compute. Qed.

(** C7.  [ndarray.__init__] raises [TypeError] whatever arguments it is
    given, supplied or defaulted, and the message points to the factory
    functions [jax.numpy.array] and [jax.numpy.zeros]. *)
Theorem C7_init_always_raises self shape dtype buffer offset strides order :
  ∃ msg,
    ndarray.__init__ self shape dtype buffer offset strides order
    = Raise (TypeError msg)
    ∧ String.index 0 "should not be instantiated explicitly" msg = Some 20
    ∧ String.index 0 "Use jax.numpy.array, or jax.numpy.zeros instead" msg
      = Some 59.
Proof. eexists. split; [reflexivity |]. split; by vm_compute. Qed.




(** C9.  Whenever [ArrayMeta.__instancecheck__] returns a true value, that
    value is [True] and both reads of [aval] succeeded, the second yielding
    an instance of [core.UnshapedArray].  The registry plays no part: the
    statement holds in every state, so a registered type alone never makes
    the method return [True]. *)
Theorem C9_true_requires_unshaped_aval ct s v r :
  fst (ArrayMeta.__instancecheck__ ct ndarray.name v s) = Ret r →
  truth r = true →
  r = VBool true
  ∧ (∃ a0, read_aval v 0 = Found a0)
  ∧ ∃ a, read_aval v 1 = Found a ∧ isinstance ct a UnshapedArray = true.
Proof.
  intros E Htrue.
  destruct (read_aval v 0) as [| a0 | e0] eqn:E0.
  - rewrite instancecheck_missing in E by done. simpl in E.
    injection E as <-. discriminate.
  - destruct (read_aval v 1) as [| a1 | e1] eqn:E1.
    + destruct (instancecheck_handler ct ndarray.name v s a0 E0)
        as (s' & E' & _); [by left |].
      rewrite E' in E. injection E as <-. discriminate.
    + rewrite (instancecheck_found ct _ v s a0 a1 E0 E1) in E.
      injection E as <-. simpl in Htrue. rewrite Htrue. eauto 6.
    + destruct (is_AttributeError e1) eqn:Ha.
      * destruct (instancecheck_handler ct ndarray.name v s a0 E0)
          as (s' & E' & _); [by eauto |].
        rewrite E' in E. injection E as <-. discriminate.
      * rewrite (instancecheck_second_other_error ct _ v s a0 e1) in E
          by done.
        discriminate.
  - destruct (is_AttributeError e0) eqn:Ha.
    + rewrite (instancecheck_first_attribute_error ct _ v s e0) in E by done.
      injection E as <-. discriminate.
    + rewrite (instancecheck_first_other_error ct _ v s e0) in E by done.
      discriminate.
Qed.

Lemma C9_true_requires_unshaped_aval_witness :
  VBool true = VBool true
  ∧ (∃ a0, read_aval (with_aval "Tracer" (abstract_value "ShapedArray")) 0
           = Found a0)
  ∧ ∃ a, read_aval (with_aval "Tracer" (abstract_value "ShapedArray")) 1
         = Found a
         ∧ isinstance jax_classes a UnshapedArray = true.
Proof.
  apply (C9_true_requires_unshaped_aval jax_classes host_registered
           (with_aval "Tracer" (abstract_value "ShapedArray")) (VBool true)).
  - vm_compute. reflexivity.
  - reflexivity.
Defined.

(** C10.  Importing the module registers [device_array.DeviceArray], each
    class of [device_array.device_array_types] and [pxla._SDA_BASE_CLASS]:
    when each of these classes heads its own MRO and none of them is a base
    of [ndarray], the three closing statements run to the end without
    raising, and afterwards [issubclass(t, ndarray)] is [True] for each of
    them. *)
Theorem C10_module_init_registers ct DeviceArray device_array_types
    _SDA_BASE_CLASS c :
  (∀ t, t ∈ DeviceArray :: device_array_types ++ [_SDA_BASE_CLASS] →
        t ∈ ct_mro ct t) →
  (∀ t, t ∈ DeviceArray :: device_array_types ++ [_SDA_BASE_CLASS] →
        t ∉ ct_mro ct ndarray.name) →
  ∃ s,
    module_init ct DeviceArray device_array_types _SDA_BASE_CLASS (abc_new c)
    = (Ret tt, s)
    ∧ ∀ t, t ∈ DeviceArray :: device_array_types ++ [_SDA_BASE_CLASS] →
           fst (issubclass_ndarray ct t s) = Ret true.
Proof.
  intros Hself Hbase.
  destruct (register_each_spec ct
              (DeviceArray :: device_array_types ++ [_SDA_BASE_CLASS])
              (abc_new c) (abc_new_inv ct ndarray.name c) Hself Hbase)
    as (s & E & Hinv & _ & Hconf).
  exists s. split.
  - by rewrite module_init_register_each.
  - intros t Ht.
    destruct (subclasscheck_spec ct ndarray.name s t Hinv)
      as (b & s' & E' & _ & _ & _ & Hb).
    unfold issubclass_ndarray. rewrite E'. simpl. f_equal.
    apply Hb. by apply Hconf.
Qed.

Lemma C10_module_init_registers_witness :
  ∃ s,
    module_init jax_classes "DeviceArray" ["Buffer"; "_DeviceArray"]
      "ShardedDeviceArrayBase" (abc_new 0) = (Ret tt, s)
    ∧ ∀ t, t ∈ "DeviceArray" :: ["Buffer"; "_DeviceArray"]
                 ++ ["ShardedDeviceArrayBase"] →
           fst (issubclass_ndarray jax_classes t s) = Ret true.
Proof.
  apply (C10_module_init_registers jax_classes "DeviceArray"
           ["Buffer"; "_DeviceArray"] "ShardedDeviceArrayBase" 0).
  - apply Forall_forall. apply (bool_decide_unpack _). vm_compute. exact I.
  - apply Forall_forall. apply (bool_decide_unpack _). vm_compute. exact I.
Defined.


(** * Further properties of the bookkeeping and of the instance check *)

Section AbcInvariant.
Context (ct : class_table) (cls : string).

Lemma registry_add_inv s t :
  abc_inv ct cls s → abc_inv ct cls (registry_add t s).
Proof.
  intros [Hv Hc Hn]. split; simpl; [lia | | lia].
  intros x Hx. eapply conforms_mono; [| by apply Hc].
  apply union_subseteq_r.
Qed.

(** Under the invariant the inherited instance check decides conformance of
    the value's class, keeps the invariant and leaves registry and counter
    alone. *)
Lemma abc_instancecheck_spec s v :
  abc_inv ct cls s →
  ∃ b s', ABCMeta.__instancecheck__ ct cls v s = (Ret b, s')
    ∧ abc_inv ct cls s'
    ∧ abc_registry s' = abc_registry s
    ∧ abc_invalidation_counter s' = abc_invalidation_counter s
    ∧ (b = true ↔ conforms ct cls (abc_registry s) (py_type v)).
Proof.
  intros Hinv. pose proof Hinv as [Hv Hc Hn].
  unfold ABCMeta.__instancecheck__. unfold bind at 1. unfold get at 1.
  destruct (bool_decide (py_type v ∈ abc_cache s)) eqn:Ecache.
  { apply bool_decide_eq_true in Ecache. exists true, s.
    split_and!; try done. split; [by auto | done]. }
  destruct ((abc_negative_cache_version s =? abc_invalidation_counter s)
            && bool_decide (py_type v ∈ abc_negative_cache s)) eqn:Eneg.
  { apply andb_true_iff in Eneg as [Hver%Nat.eqb_eq Hin%bool_decide_eq_true].
    exists false, s. split_and!; try done.
    split; [done |]. intros Hconf. by destruct (Hn Hver _ Hin). }
  by apply subclasscheck_spec.
Qed.

(** [register] keeps the invariant, whether it returns or raises. *)
Lemma register_inv s t :
  abc_inv ct cls s → abc_inv ct cls (snd (ABCMeta.register ct cls t s)).
Proof.
  intros Hinv. unfold ABCMeta.register. unfold bind at 1.
  destruct (subclasscheck_spec ct cls s t Hinv)
    as (b & s1 & -> & I1 & _).
  destruct b; [done |].
  destruct (issubclass ct cls t); simpl; [done |].
  by apply registry_add_inv.
Qed.

(** [register] adds at most the class it is given. *)
Lemma register_registry_upper s t :
  abc_registry (snd (ABCMeta.register ct cls t s)) ⊆ {[t]} ∪ abc_registry s.
Proof.
  unfold ABCMeta.register. unfold bind at 1.
  destruct (subclasscheck_frame ct cls s t) as (b & s' & -> & Hreg).
  destruct b; [simpl; rewrite Hreg; apply union_subseteq_r |].
  destruct (issubclass ct cls t); simpl; rewrite Hreg;
    [apply union_subseteq_r | done].
Qed.

(** Conformance passes to a class whose MRO contains that of a conforming
    class. *)
Lemma conforms_inherit reg r t :
  (∀ x, x ∈ ct_mro ct r → x ∈ ct_mro ct t) →
  conforms ct cls reg r → conforms ct cls reg t.
Proof.
  intros Hsub [H | [(x & Hx & Hm) | (c & Hc & Hm)]].
  - left. by apply Hsub.
  - right; left. exists x. split; [done | by apply Hsub].
  - right; right. exists c. split; [done | by apply Hsub].
Qed.

(** Two answers that decide the same proposition are the same answer. *)
Lemma decide_same (P : Prop) (b1 b2 : bool) :
  (b1 = true ↔ P) → (b2 = true ↔ P) → b1 = b2.
Proof.
  intros H1 H2. destruct b1, b2; try done.
  - symmetry. apply H2, H1. done.
  - apply H1, H2. done.
Qed.
End AbcInvariant.

Section CheckState.
Context (ct : class_table) (self : string).

(** On the path through the handler the state is the one the inherited
    check leaves behind. *)
Lemma instancecheck_handler_state v s a0 :
  read_aval v 0 = Found a0 →
  (read_aval v 1 = Missing
   ∨ ∃ e, read_aval v 1 = Fails e ∧ is_AttributeError e = true) →
  ArrayMeta.__instancecheck__ ct self v s
  = (Ret VNone, snd (ABCMeta.__instancecheck__ ct self v s)).
Proof.
  intros E0 E1.
  destruct (abc_instancecheck_frame ct self s v) as (b & s' & Hsup & _).
  unfold ArrayMeta.__instancecheck__, try_except, bind, lift,
    hasattr_aval, getattr_aval, ret. rewrite E0.
  destruct E1 as [-> | (e & -> & Ha)]; simpl; [| rewrite Ha];
    by rewrite Hsup.
Qed.

(** The method either leaves the state alone, or it went through the
    handler, answered [None] and left the state of the inherited check. *)
Lemma instancecheck_state v s :
  snd (ArrayMeta.__instancecheck__ ct self v s) = s
  ∨ ArrayMeta.__instancecheck__ ct self v s
    = (Ret VNone, snd (ABCMeta.__instancecheck__ ct self v s)).
Proof.
  destruct (read_aval v 0) as [| a0 | e0] eqn:E0.
  - left. by rewrite instancecheck_missing.
  - destruct (read_aval v 1) as [| a1 | e1] eqn:E1.
    + right. eapply instancecheck_handler_state; eauto.
    + left. by rewrite (instancecheck_found ct self v s a0 a1).
    + destruct (is_AttributeError e1) eqn:Ha.
      * right. eapply instancecheck_handler_state; eauto.
      * left. by rewrite (instancecheck_second_other_error ct self v s a0 e1).
  - destruct (is_AttributeError e0) eqn:Ha.
    + left. by rewrite (instancecheck_first_attribute_error ct self v s e0).
    + left. by rewrite (instancecheck_first_other_error ct self v s e0).
Qed.

Lemma instancecheck_inv v s :
  abc_inv ct self s →
  abc_inv ct self (snd (ArrayMeta.__instancecheck__ ct self v s)).
Proof.
  intros Hinv. destruct (instancecheck_state v s) as [-> | ->]; [done |].
  destruct (abc_instancecheck_spec ct self s v Hinv) as (b & s' & -> & I & _).
  done.
Qed.
End CheckState.

Lemma isinstance_ndarray_snd ct v s :
  snd (isinstance_ndarray ct v s)
  = snd (ArrayMeta.__instancecheck__ ct ndarray.name v s).
Proof.
  unfold isinstance_ndarray, bind, ret.
  by destruct (ArrayMeta.__instancecheck__ ct ndarray.name v s) as [[r | e] s'].
Qed.

Lemma isinstance_ndarray_registry ct v s :
  abc_registry (snd (isinstance_ndarray ct v s)) = abc_registry s.
Proof.
  rewrite isinstance_ndarray_snd.
  by destruct (instancecheck_outcomes ct ndarray.name v s)
    as (r & s' & -> & Hreg & _).
Qed.

(** ** Histories *)

Section Histories.
Context (ct : class_table).

Lemma after_call_inv c s :
  abc_inv ct ndarray.name s → abc_inv ct ndarray.name (after_call ct c s).
Proof.
  intros Hinv. destruct c as [t | t | v]; simpl.
  - by apply register_inv.
  - unfold issubclass_ndarray.
    by destruct (subclasscheck_spec ct ndarray.name s t Hinv)
      as (b & s' & -> & I & _).
  - rewrite isinstance_ndarray_snd. by apply instancecheck_inv.
Qed.

Lemma after_calls_inv cs s :
  abc_inv ct ndarray.name s → abc_inv ct ndarray.name (after_calls ct cs s).
Proof.
  revert s. induction cs as [| c cs IH]; intros s Hinv; [done |].
  simpl. by apply IH, after_call_inv.
Qed.

Lemma after_call_registry c s :
  abc_registry s ⊆ abc_registry (after_call ct c s).
Proof.
  destruct c as [t | t | v]; simpl.
  - apply register_registry_mono.
  - unfold issubclass_ndarray.
    destruct (subclasscheck_frame ct ndarray.name s t)
      as (b & s' & -> & Hreg).
    simpl. by rewrite Hreg.
  - by rewrite isinstance_ndarray_registry.
Qed.

Lemma after_calls_registry cs s :
  abc_registry s ⊆ abc_registry (after_calls ct cs s).
Proof.
  revert s. induction cs as [| c cs IH]; intros s; [done |].
  simpl. etrans; [apply (after_call_registry c) | apply IH].
Qed.

Lemma register_each_registry_upper ts s :
  abc_registry (snd (register_each ct ts s))
  ⊆ list_to_set ts ∪ abc_registry s.
Proof.
  revert s. induction ts as [| t ts IH]; intros s; simpl.
  - apply union_subseteq_r.
  - unfold bind.
    pose proof (register_registry_upper ct ndarray.name s t) as Hup.
    unfold ndarray.register.
    destruct (ABCMeta.register ct ndarray.name t s) as [[x | e] s1];
      simpl in *.
    + etrans; [apply IH |].
      intros y [Hy | Hy]%elem_of_union.
      * by apply elem_of_union_l, elem_of_union_r.
      * apply Hup in Hy as [Hy | Hy]%elem_of_union.
        -- by apply elem_of_union_l, elem_of_union_l.
        -- by apply elem_of_union_r.
    + intros y Hy. apply Hup in Hy as [Hy | Hy]%elem_of_union.
      * by apply elem_of_union_l, elem_of_union_l.
      * by apply elem_of_union_r.
Qed.
End Histories.

Lemma reachable_inv ct s : reachable ct s → abc_inv ct ndarray.name s.
Proof. intros (c & cs & ->). apply after_calls_inv, abc_new_inv. Qed.

Lemma reachable_after_calls ct cs s :
  reachable ct s → reachable ct (after_calls ct cs s).
Proof.
  intros (c & cs0 & ->). exists c, (cs0 ++ cs)%list.
  unfold after_calls. by rewrite fold_left_app.
Qed.

(** Registering a class that already conforms returns it and changes
    neither registry nor counter. *)
Lemma register_conforming ct s t :
  abc_inv ct ndarray.name s →
  conforms ct ndarray.name (abc_registry s) t →
  ∃ s', ndarray.register ct t s = (Ret t, s')
    ∧ abc_inv ct ndarray.name s'
    ∧ abc_registry s' = abc_registry s
    ∧ abc_invalidation_counter s' = abc_invalidation_counter s.
Proof.
  intros Hinv Hconf. unfold ndarray.register, ABCMeta.register.
  unfold bind at 1.
  destruct (subclasscheck_spec ct ndarray.name s t Hinv)
    as (b & s1 & -> & I1 & Hreg & Hcnt & Hb).
  apply Hb in Hconf as ->. by exists s1.
Qed.

(** Non-conformance, from the three tests the subclass check makes. *)
Lemma not_conforms_intro ct cls reg t :
  issubclass ct t cls = false →
  existsb (issubclass ct t) (elements reg) = false →
  existsb (issubclass ct t) (ct_subclasses ct cls) = false →
  ¬ conforms ct cls reg t.
Proof.
  intros E1 E2 E3 [H | [(r & Hr & Hm) | H]].
  - by apply bool_decide_eq_false in E1.
  - apply not_true_iff_false in E2. apply E2, existsb_issubclass.
    exists r. split; [by apply elem_of_elements | done].
  - apply not_true_iff_false in E3. by apply E3, existsb_issubclass.
Qed.

(** ** The instance check *)

(** X1.  [isinstance(v, ndarray)] never raises [AttributeError]: an
    exception that comes out of it was raised by one of the two reads of
    [v.aval] (the one made by [hasattr], or the one made by [instance.aval]
    after [hasattr] succeeded) and is not an [AttributeError]. *)
Theorem X1_raises_only_what_aval_raises ct v s e :
  fst (isinstance_ndarray ct v s) = Raise e →
  is_AttributeError e = false
  ∧ (read_aval v 0 = Fails e
     ∨ ∃ a0, read_aval v 0 = Found a0 ∧ read_aval v 1 = Fails e).
Proof.
  intros E.
  destruct (read_aval v 0) as [| a0 | e0] eqn:E0.
  - by rewrite isinstance_ndarray_missing in E.
  - destruct (read_aval v 1) as [| a1 | e1] eqn:E1.
    + destruct (instancecheck_handler ct ndarray.name v s a0 E0)
        as (s' & E' & _); [by left |].
      by rewrite (isinstance_ndarray_ret _ _ _ _ _ E') in E.
    + by rewrite (isinstance_ndarray_ret _ _ _ _ _
                    (instancecheck_found ct _ v s a0 a1 E0 E1)) in E.
    + destruct (is_AttributeError e1) eqn:Ha.
      * destruct (instancecheck_handler ct ndarray.name v s a0 E0)
          as (s' & E' & _); [by eauto |].
        by rewrite (isinstance_ndarray_ret _ _ _ _ _ E') in E.
      * rewrite (isinstance_ndarray_raise _ _ _ _ _
                   (instancecheck_second_other_error ct _ v s a0 e1 E0 E1 Ha))
          in E.
        injection E as <-. eauto.
  - destruct (is_AttributeError e0) eqn:Ha.
    + by rewrite (isinstance_ndarray_ret _ _ _ _ _
                    (instancecheck_first_attribute_error ct _ v s e0 E0 Ha))
        in E.
    + rewrite (isinstance_ndarray_raise _ _ _ _ _
                 (instancecheck_first_other_error ct _ v s e0 E0 Ha)) in E.
      injection E as <-. eauto.
Qed.

Lemma X1_raises_only_what_aval_raises_witness :
  is_AttributeError (ValueError "boom") = false
  ∧ (read_aval (broken_aval "Tracer" (ValueError "boom")) 0
     = Fails (ValueError "boom")
     ∨ ∃ a0, read_aval (broken_aval "Tracer" (ValueError "boom")) 0 = Found a0
             ∧ read_aval (broken_aval "Tracer" (ValueError "boom")) 1
               = Fails (ValueError "boom")).
Proof.
  apply (X1_raises_only_what_aval_raises jax_classes
           (broken_aval "Tracer" (ValueError "boom")) (abc_new 0)).
  vm_compute. reflexivity.
Defined.

(** X2.  [ArrayMeta.__instancecheck__] writes to the ABC bookkeeping on one
    path only: a call that returns a [bool] or raises, that is, any call
    that does not yield [None], leaves the whole state (registry, both
    caches, version and counter) exactly as it was. *)
Theorem X2_state_written_only_by_handler ct v s r s' :
  ArrayMeta.__instancecheck__ ct ndarray.name v s = (r, s') →
  r ≠ Ret VNone →
  s' = s.
Proof.
  intros E Hr.
  destruct (instancecheck_state ct ndarray.name v s) as [H | H].
  - by rewrite E in H.
  - rewrite E in H. injection H as -> _. done.
Qed.

Lemma X2_state_written_only_by_handler_witness :
  ArrayMeta.__instancecheck__ jax_classes ndarray.name
    (with_aval "Tracer" (abstract_value "ShapedArray")) host_registered
  = (Ret (VBool true), host_registered)
  ∧ host_registered = host_registered.
Proof.
  assert (E : ArrayMeta.__instancecheck__ jax_classes ndarray.name
                (with_aval "Tracer" (abstract_value "ShapedArray"))
                host_registered
              = (Ret (VBool true), host_registered)).
  { vm_compute. reflexivity. }
  split; [exact E |].
  apply (X2_state_written_only_by_handler jax_classes
           (with_aval "Tracer" (abstract_value "ShapedArray"))
           host_registered (Ret (VBool true)) host_registered E).
  discriminate.
Defined.

(** X3.  A value whose reads of [aval] repeat (a plain attribute, a missing
    one, a getter that always does the same) never takes the path through
    the handler: the method returns a [bool] or lets the getter's exception
    through, never [None], and the state is untouched. *)
Theorem X3_repeatable_aval_never_yields_None ct v s :
  read_aval v 1 = read_aval v 0 →
  ∃ r, ArrayMeta.__instancecheck__ ct ndarray.name v s = (r, s)
    ∧ ((∃ b, r = Ret (VBool b))
       ∨ ∃ e, r = Raise e ∧ is_AttributeError e = false).
Proof.
  intros Hrep.
  destruct (read_aval v 0) as [| a0 | e0] eqn:E0.
  - eexists. split; [by apply instancecheck_missing | eauto].
  - eexists. split; [by eapply instancecheck_found | eauto].
  - destruct (is_AttributeError e0) eqn:Ha.
    + eexists.
      split; [by eapply instancecheck_first_attribute_error | eauto].
    + eexists.
      split; [by eapply instancecheck_first_other_error | eauto].
Qed.

Lemma X3_repeatable_aval_never_yields_None_witness :
  ∃ r, ArrayMeta.__instancecheck__ jax_classes ndarray.name
         (without_aval "HostArray") host_registered = (r, host_registered)
    ∧ ((∃ b, r = Ret (VBool b))
       ∨ ∃ e, r = Raise e ∧ is_AttributeError e = false).
Proof.
  apply (X3_repeatable_aval_never_yields_None jax_classes
           (without_aval "HostArray") host_registered).
  reflexivity.
Defined.

(** X4.  The comment in [ArrayMeta.__instancecheck__] names a downside:
    [isinstance(x, ndarray)] may be true while
    [issubclass(type(x), ndarray)] is false for an array tracer.  So it is:
    in every reachable state, a value whose [aval] is an instance of
    [core.UnshapedArray] and whose class does not conform to [ndarray] is
    accepted by [isinstance], and [issubclass] rejects its class. *)
Theorem X4_tracer_instance_but_not_subclass ct s v a :
  reachable ct s →
  ¬ conforms ct ndarray.name (abc_registry s) (py_type v) →
  (∀ k, read_aval v k = Found a) →
  isinstance ct a UnshapedArray = true →
  fst (isinstance_ndarray ct v s) = Ret true
  ∧ fst (issubclass_ndarray ct (py_type v) s) = Ret false.
Proof.
  intros Hreach Hno Hread Ha. split.
  - rewrite (isinstance_ndarray_ret _ _ _ _ _
               (instancecheck_found ct _ v s a a (Hread 0) (Hread 1))).
    by rewrite Ha.
  - unfold issubclass_ndarray.
    destruct (subclasscheck_spec ct ndarray.name s (py_type v)
                (reachable_inv ct s Hreach))
      as (b & s' & -> & _ & _ & _ & Hb).
    simpl. f_equal. destruct b; [| done]. destruct Hno. by apply Hb.
Qed.

Lemma X4_tracer_instance_but_not_subclass_witness :
  fst (isinstance_ndarray jax_classes
         (with_aval "Tracer" (abstract_value "ShapedArray")) host_registered)
  = Ret true
  ∧ fst (issubclass_ndarray jax_classes "Tracer" host_registered) = Ret false.
Proof.
  apply (X4_tracer_instance_but_not_subclass jax_classes host_registered
           (with_aval "Tracer" (abstract_value "ShapedArray"))
           (abstract_value "ShapedArray")).
  - exists 0, [CallRegister "HostArray"]. reflexivity.
  - apply not_conforms_intro; vm_compute; reflexivity.
  - intros k. reflexivity.
  - vm_compute. reflexivity.
Defined.

(** X5.  Classifying a value never disturbs the subclass checks: in every
    reachable state, [issubclass(t, ndarray)] answers after a call of
    [isinstance(v, ndarray)] what it answered before, also when that call
    went through the handler and wrote to the caches. *)
Theorem X5_isinstance_keeps_issubclass ct s v t :
  reachable ct s →
  fst (issubclass_ndarray ct t (snd (isinstance_ndarray ct v s)))
  = fst (issubclass_ndarray ct t s).
Proof.
  intros Hreach. pose proof (reachable_inv ct s Hreach) as Hinv.
  pose proof (isinstance_ndarray_registry ct v s) as Hreg.
  assert (Hinv' : abc_inv ct ndarray.name (snd (isinstance_ndarray ct v s))).
  { rewrite isinstance_ndarray_snd. by apply instancecheck_inv. }
  unfold issubclass_ndarray.
  destruct (subclasscheck_spec ct ndarray.name s t Hinv)
    as (b1 & s1 & -> & _ & _ & _ & Hb1).
  destruct (subclasscheck_spec ct ndarray.name _ t Hinv')
    as (b2 & s2 & -> & _ & _ & _ & Hb2).
  simpl. f_equal. rewrite Hreg in Hb2. by eapply decide_same.
Qed.

Lemma X5_isinstance_keeps_issubclass_witness :
  fst (issubclass_ndarray jax_classes "HostArray"
         (snd (isinstance_ndarray jax_classes
                 (fading_aval "HostArray" (abstract_value "ShapedArray"))
                 host_registered)))
  = fst (issubclass_ndarray jax_classes "HostArray" host_registered).
Proof.
  apply (X5_isinstance_keeps_issubclass jax_classes host_registered
           (fading_aval "HostArray" (abstract_value "ShapedArray"))
           "HostArray").
  exists 0, [CallRegister "HostArray"]. reflexivity.
Defined.

(** ** Registration and the subclass check *)

(** X6.  The caches stay sound: in every state that a sequence of
    [ndarray.register], [issubclass(_, ndarray)] and [isinstance(_, ndarray)]
    calls leads to from the freshly created class, whether the calls return
    or raise, the negative-cache version does not exceed the invalidation
    counter, every class in the positive cache conforms, and while the
    negative cache is valid no class in it conforms. *)
Theorem X6_caches_stay_sound ct c cs :
  abc_inv ct ndarray.name (after_calls ct cs (abc_new c)).
Proof. apply after_calls_inv, abc_new_inv. Qed.

(** X7.  The caches are transparent: in every reachable state
    [issubclass(t, ndarray)] returns, leaves the registry as it is, and
    answers [True] exactly when [ndarray], a registered class or a direct
    subclass of [ndarray] is in the MRO of [t]. *)
Theorem X7_issubclass_decides_conformance ct s t :
  reachable ct s →
  ∃ b s', issubclass_ndarray ct t s = (Ret b, s')
    ∧ abc_registry s' = abc_registry s
    ∧ (b = true ↔ conforms ct ndarray.name (abc_registry s) t).
Proof.
  intros Hreach. unfold issubclass_ndarray.
  destruct (subclasscheck_spec ct ndarray.name s t
              (reachable_inv ct s Hreach))
    as (b & s' & E & _ & Hreg & _ & Hb).
  by exists b, s'.
Qed.

Lemma X7_issubclass_decides_conformance_witness :
  ∃ b s', issubclass_ndarray jax_classes "DeviceArray" imported = (Ret b, s')
    ∧ abc_registry s' = abc_registry imported
    ∧ (b = true
       ↔ conforms jax_classes ndarray.name (abc_registry imported)
           "DeviceArray").
Proof.
  apply (X7_issubclass_decides_conformance jax_classes imported
           "DeviceArray").
  exists 0, [CallRegister "DeviceArray"; CallRegister "Buffer";
             CallRegister "_DeviceArray";
             CallRegister "ShardedDeviceArrayBase"].
  vm_compute. reflexivity.
Defined.

(** X8.  The registry is append-only: no sequence of [ndarray.register],
    [issubclass] and [isinstance] calls, returning or raising, takes a class
    out of it. *)
Theorem X8_registry_append_only ct cs s :
  abc_registry s ⊆ abc_registry (after_calls ct cs s).
Proof. apply after_calls_registry. Qed.

(** X9.  Conformance is monotone: once [issubclass(t, ndarray)] is [True] in
    a reachable state, it is [True] after any further sequence of
    registrations and checks. *)
Theorem X9_issubclass_monotone ct s t cs :
  reachable ct s →
  fst (issubclass_ndarray ct t s) = Ret true →
  fst (issubclass_ndarray ct t (after_calls ct cs s)) = Ret true.
Proof.
  intros Hreach E. pose proof (reachable_inv ct s Hreach) as Hinv.
  pose proof (reachable_inv ct _ (reachable_after_calls ct cs s Hreach))
    as Hinv'.
  unfold issubclass_ndarray in *.
  destruct (subclasscheck_spec ct ndarray.name s t Hinv)
    as (b & s1 & E1 & _ & _ & _ & Hb).
  rewrite E1 in E. injection E as ->.
  destruct (subclasscheck_spec ct ndarray.name _ t Hinv')
    as (b2 & s2 & -> & _ & _ & _ & Hb2).
  simpl. f_equal. apply Hb2.
  eapply conforms_mono; [apply after_calls_registry | by apply Hb].
Qed.

Lemma X9_issubclass_monotone_witness :
  fst (issubclass_ndarray jax_classes "HostArray"
         (after_calls jax_classes
            [CallRegister "DeviceArray";
             CallIsinstance (without_aval "HostArray");
             CallRegister "object"]
            host_registered))
  = Ret true.
Proof.
  apply (X9_issubclass_monotone jax_classes host_registered "HostArray").
  - exists 0, [CallRegister "HostArray"]. reflexivity.
  - vm_compute. reflexivity.
Defined.

(** X10.  Registration is idempotent: if [ndarray.register(t)] returns in a
    reachable state, for a class [t] that heads its own MRO, it returns [t],
    and registering [t] once more returns [t] again and changes neither the
    registry nor the invalidation counter. *)
Theorem X10_register_idempotent ct s t x :
  reachable ct s →
  t ∈ ct_mro ct t →
  fst (ndarray.register ct t s) = Ret x →
  x = t
  ∧ ∃ s2,
      ndarray.register ct t (snd (ndarray.register ct t s)) = (Ret t, s2)
      ∧ abc_registry s2 = abc_registry (snd (ndarray.register ct t s))
      ∧ abc_invalidation_counter s2
        = abc_invalidation_counter (snd (ndarray.register ct t s)).
Proof.
  intros Hreach Hself E. pose proof (reachable_inv ct s Hreach) as Hinv.
  assert (Hfirst : ∃ s1,
    ndarray.register ct t s = (Ret t, s1)
    ∧ abc_inv ct ndarray.name s1
    ∧ conforms ct ndarray.name (abc_registry s1) t).
  { revert E. unfold ndarray.register, ABCMeta.register. unfold bind at 1 3.
    destruct (subclasscheck_spec ct ndarray.name s t Hinv)
      as (b & s1 & -> & I1 & Hreg & _ & Hb).
    destruct b.
    { intros _. exists s1. split_and!; [done | done |].
      rewrite Hreg. by apply Hb. }
    destruct (issubclass ct ndarray.name t); [done |]. intros _.
    exists (registry_add t s1).
    split_and!; [done | by apply registry_add_inv |].
    right; left. exists t. simpl.
    split; [by apply elem_of_union_l, elem_of_singleton | done]. }
  destruct Hfirst as (s1 & E1 & I1 & C1).
  rewrite E1 in E |- *. simpl in *. split; [by injection E |].
  destruct (register_conforming ct s1 t I1 C1) as (s2 & E2 & _ & R2 & N2).
  by exists s2.
Qed.

Lemma X10_register_idempotent_witness :
  "DeviceArray" = "DeviceArray"
  ∧ ∃ s2,
      ndarray.register jax_classes "DeviceArray"
        (snd (ndarray.register jax_classes "DeviceArray" host_registered))
      = (Ret "DeviceArray", s2)
      ∧ abc_registry s2
        = abc_registry
            (snd (ndarray.register jax_classes "DeviceArray" host_registered))
      ∧ abc_invalidation_counter s2
        = abc_invalidation_counter
            (snd (ndarray.register jax_classes "DeviceArray" host_registered)).
Proof.
  apply (X10_register_idempotent jax_classes host_registered "DeviceArray"
           "DeviceArray").
  - exists 0, [CallRegister "HostArray"]. reflexivity.
  - apply (bool_decide_unpack _). vm_compute. exact I.
  - vm_compute. reflexivity.
Defined.

(** X11.  Registering a base of [ndarray] is refused: in a reachable state,
    [ndarray.register(t)] for a class [t] that is in the MRO of [ndarray]
    and does not itself conform (such as [object]) raises [RuntimeError]
    and leaves registry and invalidation counter as they were. *)
Theorem X11_register_refuses_cycle ct s t :
  reachable ct s →
  t ∈ ct_mro ct ndarray.name →
  ¬ conforms ct ndarray.name (abc_registry s) t →
  ∃ s',
    ndarray.register ct t s
    = (Raise (RuntimeError "Refusing to create an inheritance cycle"), s')
    ∧ abc_registry s' = abc_registry s
    ∧ abc_invalidation_counter s' = abc_invalidation_counter s.
Proof.
  intros Hreach Hbase Hno.
  unfold ndarray.register, ABCMeta.register. unfold bind at 1.
  destruct (subclasscheck_spec ct ndarray.name s t
              (reachable_inv ct s Hreach))
    as (b & s1 & -> & _ & Hreg & Hcnt & Hb).
  destruct b; [destruct Hno; by apply Hb |].
  unfold issubclass. rewrite bool_decide_eq_true_2 by done.
  by exists s1.
Qed.

Lemma X11_register_refuses_cycle_witness :
  ∃ s',
    ndarray.register jax_classes "object" host_registered
    = (Raise (RuntimeError "Refusing to create an inheritance cycle"), s')
    ∧ abc_registry s' = abc_registry host_registered
    ∧ abc_invalidation_counter s'
      = abc_invalidation_counter host_registered.
Proof.
  apply (X11_register_refuses_cycle jax_classes host_registered "object").
  - exists 0, [CallRegister "HostArray"]. reflexivity.
  - apply (bool_decide_unpack _). vm_compute. exact I.
  - apply not_conforms_intro; vm_compute; reflexivity.
Defined.

(** ** Module initialisation *)

(** X12.  Importing the module registers nothing but the classes it names:
    whatever the state before and whether or not a registration raises, the
    registry afterwards holds at most [DeviceArray], the classes of
    [device_array_types], [_SDA_BASE_CLASS] and what it held before. *)
Theorem X12_module_init_registers_nothing_else ct DeviceArray
    device_array_types _SDA_BASE_CLASS s :
  abc_registry
    (snd (module_init ct DeviceArray device_array_types _SDA_BASE_CLASS s))
  ⊆ list_to_set (DeviceArray :: device_array_types ++ [_SDA_BASE_CLASS])
    ∪ abc_registry s.
Proof.
  rewrite module_init_register_each. apply register_each_registry_upper.
Qed.

(** X13.  Classes derived from the registered ones are arrays too: when
    the import succeeds as in C10 (each named class heads its own MRO, none
    is a base of [ndarray]), then for every class [t] whose MRO contains the
    MRO of one of the named classes [issubclass(t, ndarray)] is [True]
    after the import. *)
Theorem X13_derived_classes_conform ct DeviceArray device_array_types
    _SDA_BASE_CLASS c r t :
  (∀ u, u ∈ DeviceArray :: device_array_types ++ [_SDA_BASE_CLASS] →
        u ∈ ct_mro ct u) →
  (∀ u, u ∈ DeviceArray :: device_array_types ++ [_SDA_BASE_CLASS] →
        u ∉ ct_mro ct ndarray.name) →
  r ∈ DeviceArray :: device_array_types ++ [_SDA_BASE_CLASS] →
  (∀ x, x ∈ ct_mro ct r → x ∈ ct_mro ct t) →
  fst (issubclass_ndarray ct t
         (snd (module_init ct DeviceArray device_array_types _SDA_BASE_CLASS
                 (abc_new c))))
  = Ret true.
Proof.
  intros Hself Hbase Hr Hsub.
  destruct (register_each_spec ct
              (DeviceArray :: device_array_types ++ [_SDA_BASE_CLASS])
              (abc_new c) (abc_new_inv ct ndarray.name c) Hself Hbase)
    as (s & E & Hinv & _ & Hconf).
  rewrite module_init_register_each, E. simpl.
  destruct (subclasscheck_spec ct ndarray.name s t Hinv)
    as (b & s' & E' & _ & _ & _ & Hb).
  unfold issubclass_ndarray. rewrite E'. simpl. f_equal.
  apply Hb. eapply conforms_inherit; [exact Hsub | by apply Hconf].
Qed.

Lemma X13_derived_classes_conform_witness :
  fst (issubclass_ndarray jax_classes_derived "PaddedArray"
         (snd (module_init jax_classes_derived "DeviceArray"
                 ["Buffer"; "_DeviceArray"] "ShardedDeviceArrayBase"
                 (abc_new 0))))
  = Ret true.
Proof.
  apply (X13_derived_classes_conform jax_classes_derived "DeviceArray"
           ["Buffer"; "_DeviceArray"] "ShardedDeviceArrayBase" 0
           "DeviceArray" "PaddedArray").
  - apply Forall_forall. apply (bool_decide_unpack _). vm_compute. exact I.
  - apply Forall_forall. apply (bool_decide_unpack _). vm_compute. exact I.
  - apply (bool_decide_unpack _). vm_compute. exact I.
  - apply Forall_forall. apply (bool_decide_unpack _). vm_compute. exact I.
Defined.
